(** * Token lifecycle of the contacts API: [src/services/auth.py]

    A shallow embedding of the [Auth] service: the three issuance functions
    ([create_access_token], [create_refresh_token], [create_email_token]) and
    the three resolution functions ([get_current_user],
    [decode_refresh_token], [get_email_from_token]), followed by the
    properties the specification states about them.

    Python objects that the code mutates (the claims dictionaries) live in a
    heap of dictionaries addressed by references; the wall clock is a
    sequence of readings, one per call of [datetime.utcnow]; exceptions are
    values of [exn] carried by a state-and-error monad. *)

From stdpp Require Import gmap strings list fin_maps.
From Stdlib Require Import ZArith Lia.

Open Scope Z_scope.

(** ** Python values *)

(** The objects a claims dictionary can hold.  A [datetime] is naive UTC and
    is counted in microseconds since 0001-01-01T00:00:00, the resolution and
    origin of CPython's type.  A float is carried as its binary64 bit
    pattern: the service never computes on the floats of a payload. *)
#[warnings="-register-all"] Inductive value : Type :=
  | VNone
  | VBool (b : bool)
  | VInt (z : Z)
  | VFloat (bits : Z)
  | VStr (s : string)
  | VDatetime (us : Z)
  | VList (l : list value)
  | VDict (d : gmap string value).

Abbreviation dict := (gmap string value).

(** [v == s] for a string literal [s]: only a [str] equals a [str]. *)
Definition py_eq_str (v : value) (s : string) : bool :=
  match v with
  | VStr s' => bool_decide (s' = s)
  | _ => false
  end.

(** [v is None] *)
Definition is_None (v : value) : bool :=
  match v with
  | VNone => true
  | _ => false
  end.

(** [d.get(k)]: [None] when the key is absent. *)
Definition dict_get (d : dict) (k : string) : value :=
  default VNone (d !! k).

(** ** Exceptions *)

(** [jose.exceptions]: [JWTError] and its two subclasses. *)
Inductive jose_class : Type :=
  | JWTError_base
  | ExpiredSignatureError
  | JWTClaimsError.

Record jose_error : Type := JoseError {
  jose_cls : jose_class;
  jose_msg : string
}.

Inductive exn : Type :=
  | JWTError (e : jose_error)
  | HTTPException (status_code : Z) (detail : string)
                  (headers : option (gmap string string))
  | KeyError (key : string)
  | AttributeError
  | OverflowError
  | TypeError (msg : string).

Inductive result (A : Type) : Type :=
  | Ok (a : A)
  | Raise (e : exn).
Arguments Ok {A} a.
Arguments Raise {A} e.

(** [fastapi.status] *)
Definition HTTP_401_UNAUTHORIZED : Z := 401.
Definition HTTP_422_UNPROCESSABLE_ENTITY : Z := 422.

(** ** The world the service runs in *)

Definition loc := positive.

Record world : Type := World {
  clock : nat -> Z;           (* the n-th reading of [datetime.utcnow()] *)
  reads : nat;                (* readings taken so far *)
  heap : gmap loc dict;       (* the dictionaries alive, by reference *)
  jose_encoded : list dict;   (* claims handed to [jwt.encode], newest first *)
  stdout : list string        (* lines printed, newest first *)
}.

Definition M (A : Type) : Type := world -> result A * world.

Definition ret {A} (a : A) : M A := fun w => (Ok a, w).

Definition raise {A} (e : exn) : M A := fun w => (Raise e, w).

Definition bind {A B} (m : M A) (k : A -> M B) : M B :=
  fun w =>
    match m w with
    | (Ok a, w') => k a w'
    | (Raise e, w') => (Raise e, w')
    end.

Declare Scope py_scope.
Delimit Scope py_scope with py.
Notation "x <- m ;; k" := (bind m (fun x => k))
  (at level 100, m at next level, right associativity) : py_scope.
Notation "m ;;; k" := (bind m (fun _ => k))
  (at level 100, right associativity) : py_scope.
Open Scope py_scope.

(** [try: body / except JWTError as e: handler e]: any other exception
    passes through. *)
Definition try_except_JWTError {A} (body : M A) (handler : jose_error -> M A)
  : M A :=
  fun w =>
    match body w with
    | (Raise (JWTError e), w') => handler e w'
    | other => other
    end.

(** Lift a pure computation that may raise. *)
Definition lift {A} (r : result A) : M A := fun w => (r, w).

(** ** [datetime] and [timedelta] *)

Definition us_per_second : Z := 1000000.
Definition seconds_per_day : Z := 86400.

(** [timedelta(days=.., seconds=.., minutes=..)] with integer arguments, in
    microseconds.  CPython normalises to days, seconds and microseconds and
    refuses more than 999999999 days in either direction. *)
Definition timedelta (days seconds minutes : Z) : result Z :=
  let total := days * seconds_per_day + minutes * 60 + seconds in
  if Z.abs (total / seconds_per_day) <=? 999999999
  then Ok (total * us_per_second)
  else Raise OverflowError.

(** [datetime.max] is the last microsecond of day 3652059 (9999-12-31). *)
Definition MAXORDINAL : Z := 3652059.
Definition datetime_end : Z := MAXORDINAL * seconds_per_day * us_per_second.

(** [t + d] for a datetime and a timedelta. *)
Definition datetime_add (t d : Z) : result Z :=
  let r := t + d in
  if (0 <=? r) && (r <? datetime_end) then Ok r else Raise OverflowError.

(** [datetime.utcnow()]: takes the next reading of the clock. *)
Definition utcnow : M Z :=
  fun w =>
    (Ok (clock w (reads w)),
     World (clock w) (S (reads w)) (heap w) (jose_encoded w) (stdout w)).

(** ** Dictionaries on the heap *)

(** [r.copy()]: a new dictionary with the entries of [r] (a shallow copy;
    the entries themselves are held by value, nothing in the service
    mutates an object nested in a dictionary).  A reference that holds no
    dictionary is an argument that is not a [dict]: the attribute lookup
    fails. *)
Definition dict_copy (r : loc) : M loc :=
  fun w =>
    match heap w !! r with
    | Some d =>
        let l := fresh (dom (heap w)) in
        (Ok l, World (clock w) (reads w) (<[l := d]> (heap w))
                     (jose_encoded w) (stdout w))
    | None => (Raise AttributeError, w)
    end.

(** [r.update(other)]: the entries of [other] replace or extend those of
    [r], in place. *)
Definition dict_update (r : loc) (other : dict) : M unit :=
  fun w =>
    match heap w !! r with
    | Some d =>
        (Ok tt, World (clock w) (reads w) (<[r := other ∪ d]> (heap w))
                      (jose_encoded w) (stdout w))
    | None => (Raise AttributeError, w)
    end.

(** [d[k]] on a dictionary value: [KeyError] when the key is absent. *)
Definition dict_getitem (d : dict) (k : string) : M value :=
  match d !! k with
  | Some v => ret v
  | None => raise (KeyError k)
  end.

(** [print(e)] *)
Definition print (line : string) : M unit :=
  fun w =>
    (Ok tt, World (clock w) (reads w) (heap w) (jose_encoded w)
                  (line :: stdout w)).

(** ** The libraries and collaborators the service calls *)

(** [jose.jwt].  Tokens are opaque to the service: it hands to the caller
    what [jwt.encode] returns and hands to [jwt.decode] what the caller
    presents.  Of [jwt.decode] the two outcomes the service tells apart are
    modelled, a [JWTError] and a payload; the properties below are about
    calls in which jose ends in one of the two. *)
Class Jose : Type := {
  Token : Type;
  (* [jwt.encode(claims, key, algorithm)]: the token or the exception it
     raises, and the content it leaves in the [claims] dictionary it was
     given (jose rewrites time claims in place). *)
  jwt_encode : dict -> string -> string -> result Token * dict;
  (* [jwt.decode(token, key, algorithms)] at a reading of the wall clock:
     the payload, or the [JWTError] it raises. *)
  jwt_decode : Token -> string -> list string -> Z -> jose_error + dict
}.

(** Modelled from the spec: [repository_users.get_user_by_email], the user
    lookup collaborator of section 6,
    [getUserByEmail(email) -> Principal | NotFound]; its module is not among
    the sources.  A lookup that fails with an error of the database is not
    modelled: the properties below are about lookups that end in a user or
    in none. *)
Class Users : Type := {
  User : Type;
  Session : Type;
  get_user_by_email : value -> Session -> option User
}.

(** [settings.secret_key] and [settings.algorithm] *)
Class Settings : Type := {
  SECRET_KEY : string;
  ALGORITHM : string
}.

(** ** The service *)

Section Auth.

Context {lib : Jose} {store : Users} {conf : Settings}.

(** The call [jwt.encode(to_encode, key, algorithm=alg)] on a dictionary of
    the heap. *)
Definition jwt_encode_call (claims : loc) (key alg : string) : M Token :=
  fun w =>
    match heap w !! claims with
    | Some d =>
        let '(r, d') := jwt_encode d key alg in
        (r, World (clock w) (reads w) (<[claims := d']> (heap w))
                  (d :: jose_encoded w) (stdout w))
    | None => (Raise AttributeError, w)
    end.

(** The call [jwt.decode(token, key, algorithms=algs)]; jose reads the wall
    clock to check [exp], which is modelled as one reading at each call. *)
Definition jwt_decode_call (token : Token) (key : string)
    (algs : list string) : M dict :=
  now <- utcnow ;;
  match jwt_decode token key algs now with
  | inl e => raise (JWTError e)
  | inr payload => ret payload
  end.

(** The dictionary literal [{"iat": iat, "exp": exp, "scope": scope}]. *)
Definition stamp (iat exp : Z) (scope : string) : dict :=
  <["iat" := VDatetime iat]>
    (<["exp" := VDatetime exp]> (<["scope" := VStr scope]> ∅)).

(** [if expires_delta:] on an [Optional] number: [None] and zero are false.
    A duration is a whole number of seconds here (a Python [int], which the
    annotation [Optional[float]] admits); the rounding [timedelta] applies
    to a fractional number of seconds is not modelled. *)
Definition truthy (expires_delta : option Z) : bool :=
  match expires_delta with
  | Some s => negb (s =? 0)
  | None => false
  end.

(** The number held by [expires_delta] where the code has tested it. *)
Definition number (expires_delta : option Z) : Z := default 0 expires_delta.

Definition create_access_token (data : loc) (expires_delta : option Z)
  : M Token :=
  to_encode <- dict_copy data ;;
  expire <-
    (if truthy expires_delta then
       now <- utcnow ;;
       d <- lift (timedelta 0 (number expires_delta) 0) ;;
       lift (datetime_add now d)
     else
       now <- utcnow ;;
       d <- lift (timedelta 0 0 15) ;;
       lift (datetime_add now d)) ;;
  iat <- utcnow ;;
  dict_update to_encode (stamp iat expire "access_token") ;;;
  encoded_access_token <- jwt_encode_call to_encode SECRET_KEY ALGORITHM ;;
  ret encoded_access_token.

Definition create_refresh_token (data : loc) (expires_delta : option Z)
  : M Token :=
  to_encode <- dict_copy data ;;
  expire <-
    (if truthy expires_delta then
       now <- utcnow ;;
       d <- lift (timedelta 0 (number expires_delta) 0) ;;
       lift (datetime_add now d)
     else
       now <- utcnow ;;
       d <- lift (timedelta 7 0 0) ;;
       lift (datetime_add now d)) ;;
  iat <- utcnow ;;
  dict_update to_encode (stamp iat expire "refresh_token") ;;;
  encoded_refresh_token <- jwt_encode_call to_encode SECRET_KEY ALGORITHM ;;
  ret encoded_refresh_token.

Definition create_email_token (data : loc) : M Token :=
  to_encode <- dict_copy data ;;
  now <- utcnow ;;
  d <- lift (timedelta 7 0 0) ;;
  expire <- lift (datetime_add now d) ;;
  iat <- utcnow ;;
  dict_update to_encode (stamp iat expire "email_token") ;;;
  token <- jwt_encode_call to_encode SECRET_KEY ALGORITHM ;;
  ret token.

Definition credentials_exception : exn :=
  HTTPException HTTP_401_UNAUTHORIZED "Could not validate credentials"
                (Some {[ "WWW-Authenticate" := "Bearer" ]}).

Definition get_current_user (token : Token) (db : Session) : M User :=
  email <-
    try_except_JWTError
      (payload <- jwt_decode_call token SECRET_KEY [ALGORITHM] ;;
       if py_eq_str (dict_get payload "scope") "access_token" then
         let email := dict_get payload "sub" in
         if is_None email then raise credentials_exception
         else ret email
       else raise credentials_exception)
      (fun e => raise credentials_exception) ;;
  match get_user_by_email email db with
  | None => raise credentials_exception
  | Some user => ret user
  end.

Definition decode_refresh_token (refresh_token : Token) : M value :=
  try_except_JWTError
    (payload <- jwt_decode_call refresh_token SECRET_KEY [ALGORITHM] ;;
     scope <- dict_getitem payload "scope" ;;
     if py_eq_str scope "refresh_token" then
       email <- dict_getitem payload "sub" ;;
       ret email
     else
       raise (HTTPException HTTP_401_UNAUTHORIZED
                            "Invalid scope for token" None))
    (fun _ =>
       raise (HTTPException HTTP_401_UNAUTHORIZED
                            "Could not validate credentials" None)).

Definition get_email_from_token (token : Token) : M value :=
  try_except_JWTError
    (payload <- jwt_decode_call token SECRET_KEY [ALGORITHM] ;;
     scope <- dict_getitem payload "scope" ;;
     if py_eq_str scope "email_token" then
       email <- dict_getitem payload "sub" ;;
       ret email
     else
       raise (HTTPException HTTP_401_UNAUTHORIZED
                            "Invalid scope for token" None))
    (fun e =>
       print (jose_msg e) ;;;
       raise (HTTPException HTTP_422_UNPROCESSABLE_ENTITY
                            "Invalid token for email verification" None)).

(** *** Vocabulary of the properties *)

(** The three token kinds and the tag each issuance function writes. *)
Inductive kind : Type := access_token | refresh_token | email_token.

Definition scope_tag (k : kind) : string :=
  match k with
  | access_token => "access_token"
  | refresh_token => "refresh_token"
  | email_token => "email_token"
  end.

(** The issuance function of a kind; [create_email_token] takes no
    duration. *)
Definition issue (k : kind) (data : loc) (expires_delta : option Z)
  : M Token :=
  match k with
  | access_token => create_access_token data expires_delta
  | refresh_token => create_refresh_token data expires_delta
  | email_token => create_email_token data
  end.

(** Default lifetimes, in seconds: 15 minutes, 7 days, 7 days. *)
Definition default_lifetime (k : kind) : Z :=
  match k with
  | access_token => 15 * 60
  | refresh_token => 7 * seconds_per_day
  | email_token => 7 * seconds_per_day
  end.

(** The lifetime, in seconds, that a call requests. *)
Definition lifetime (k : kind) (expires_delta : option Z) : Z :=
  match k, expires_delta with
  | email_token, _ => default_lifetime k
  | _, Some s => if s =? 0 then default_lifetime k else s
  | _, None => default_lifetime k
  end.

(** A lifetime of [secs] seconds from the instant [t] is one that
    [timedelta] and [datetime] arithmetic can represent. *)
Definition in_range (t secs : Z) : Prop :=
  Z.abs (secs / seconds_per_day) <= 999999999 /\
  0 <= t + secs * us_per_second < datetime_end.

(** The claims a call of kind [k] hands to [jwt.encode] when the caller's
    dictionary holds [d]: the stamp laid over a copy of [d].  The expiry is
    counted from the first reading of the clock, [iat] is the second. *)
Definition stamped (k : kind) (expires_delta : option Z) (d : dict)
    (w : world) : dict :=
  stamp (clock w (S (reads w)))
        (clock w (reads w) + lifetime k expires_delta * us_per_second)
        (scope_tag k) ∪ d.

(** The outcome of an issuance that reaches [jwt.encode] with [claims] held
    at the fresh reference [l]: two readings of the clock taken, the call
    recorded, and [l] left with whatever jose left in it. *)
Definition issued (l : loc) (claims : dict) (w : world)
  : result Token * world :=
  ((jwt_encode claims SECRET_KEY ALGORITHM).1,
   World (clock w) (S (S (reads w)))
         (<[l := (jwt_encode claims SECRET_KEY ALGORITHM).2]> (heap w))
         (claims :: jose_encoded w) (stdout w)).


(** The ways [get_current_user] can fail on a token presented while the
    clock reads [now]. *)
Inductive auth_failure (token : Token) (db : Session) (now : Z) : Prop :=
  | jose_rejects (e : jose_error) :
      (* signature invalid, structure malformed, or expired *)
      jwt_decode token SECRET_KEY [ALGORITHM] now = inl e ->
      auth_failure token db now
  | wrong_scope (payload : dict) :
      jwt_decode token SECRET_KEY [ALGORITHM] now = inr payload ->
      dict_get payload "scope" <> VStr "access_token" ->
      auth_failure token db now
  | no_subject (payload : dict) :
      jwt_decode token SECRET_KEY [ALGORITHM] now = inr payload ->
      dict_get payload "sub" = VNone ->
      auth_failure token db now
  | user_not_found (payload : dict) :
      jwt_decode token SECRET_KEY [ALGORITHM] now = inr payload ->
      get_user_by_email (dict_get payload "sub") db = None ->
      auth_failure token db now.

(** What the service relies on from jose for scope enforcement: when
    [jwt.decode] accepts a token that [jwt.encode] made, with the same key
    and algorithm, the payload carries the string-valued scope of the claims
    that were encoded. *)
Definition jose_keeps_scope : Prop :=
  forall (claims rest payload : dict) (key alg s : string) (tok : Token)
         (now : Z),
    jwt_encode claims key alg = (Ok tok, rest) ->
    claims !! "scope" = Some (VStr s) ->
    jwt_decode tok key [alg] now = inr payload ->
    payload !! "scope" = Some (VStr s).

(** The same for any claim: a string held under [name] in the claims that
    were encoded is what an accepted payload holds under [name]. *)
Definition jose_keeps (name : string) : Prop :=
  forall (claims rest payload : dict) (key alg s : string) (tok : Token)
         (now : Z),
    jwt_encode claims key alg = (Ok tok, rest) ->
    claims !! name = Some (VStr s) ->
    jwt_decode tok key [alg] now = inr payload ->
    payload !! name = Some (VStr s).

(** [jwt.decode] accepts the token at the reading [now]. *)
Definition accepted (tok : Token) (now : Z) : Prop :=
  exists payload : dict,
    jwt_decode tok SECRET_KEY [ALGORITHM] now = inr payload.

End Auth.

(** ** The migration [1500e7ebaa7a_add_user] *)

Module Migration.

(** [sa.Integer()] and [sa.String(length=n)] *)
Inductive sqltype : Type :=
  | Integer
  | String (length : Z).

(** [sa.Column(name, type, nullable=..)] *)
Record Column : Type := {
  col_name : string;
  col_type : sqltype;
  nullable : bool
}.

Inductive Constraint : Type :=
  | PrimaryKeyConstraint (cols : list string)
  | UniqueConstraint (cols : list string).

Record table : Type := {
  columns : list Column;
  constraints : list Constraint
}.

(** The tables of a database, by name. *)
Abbreviation schema := (gmap string table).



Definition revision : string := "1500e7ebaa7a".
Definition down_revision : string := "c17f02e1874b".




End Migration.

(** ** An idealised jose, to run the service on concrete inputs *)

Module Symbolic.

(** A token is the payload it was signed over, with the key and algorithm
    used, or a string that is no token at all. *)
Inductive token : Type :=
  | Signed (payload : dict) (key alg : string)
  | Garbage (s : string).

(** Seconds between 0001-01-01 and the Unix epoch. *)
Definition epoch : Z := 62135596800.

(** jose writes a [datetime] time claim as whole seconds since the epoch. *)
Definition intdate (v : value) : value :=
  match v with
  | VDatetime us => VInt (us / us_per_second - epoch)
  | _ => v
  end.

Definition time_claims (d : dict) : dict :=
  alter intdate "nbf" (alter intdate "iat" (alter intdate "exp" d)).

Definition encode (claims : dict) (key alg : string)
  : result token * dict :=
  let claims' := time_claims claims in
  (Ok (Signed claims' key alg), claims').

Definition decode (t : token) (key : string) (algs : list string) (now : Z)
  : jose_error + dict :=
  match t with
  | Garbage _ => inl (JoseError JWTError_base "Not enough segments")
  | Signed payload k a =>
      if bool_decide (k = key) && bool_decide (a ∈ algs) then
        match payload !! "exp" with
        | Some (VInt exp) =>
            if exp <? now / us_per_second - epoch
            then inl (JoseError ExpiredSignatureError
                                "Signature has expired.")
            else inr payload
        | _ => inr payload
        end
      else inl (JoseError JWTError_base "Signature verification failed.")
  end.

#[local] Instance jose : Jose :=
  {| Token := token; jwt_encode := encode; jwt_decode := decode |}.

#[local] Instance settings : Settings :=
  {| SECRET_KEY := "secret"; ALGORITHM := "HS256" |}.

(** A user store with the single account ["a@b.com"]. *)
#[local] Instance users : Users :=
  {| User := string; Session := unit;
     get_user_by_email := fun email _ =>
       if py_eq_str email "a@b.com" then Some "a@b.com"%string else None |}.

(** 2023-11-14T22:13:20 UTC, and a clock that advances by one microsecond
    at each reading. *)
Definition t0 : Z := (epoch + 1700000000) * us_per_second.
Definition ticking (n : nat) : Z := t0 + Z.of_nat n.

(** Three dictionaries a caller may hold: [{"sub": "a@b.com"}] at
    reference 1, the empty dictionary at reference 2, and at reference 3 one
    that already has entries under the stamped keys. *)
Definition data0 : dict := {[ "sub" := VStr "a@b.com" ]}.
Definition data1 : dict :=
  <["sub" := VStr "a@b.com"]>
    (<["scope" := VStr "refresh_token"]>
       (<["exp" := VInt 0]> (<["iat" := VStr "never"]> ∅))).
Definition w0 : world :=
  World ticking 0
        (<[1%positive := data0]>
           (<[2%positive := ∅]> (<[3%positive := data1]> ∅)))
        [] [].

(** The token of a successful issuance. *)
Definition token_of (r : result token) : token :=
  match r with
  | Ok t => t
  | Raise _ => Garbage ""
  end.

Definition payload_of (t : token) : dict :=
  match t with
  | Signed payload _ _ => payload
  | Garbage _ => ∅
  end.

(** An access token and a refresh token for ["a@b.com"], a refresh token
    issued from the empty dictionary, and a token signed over a payload
    without scope. *)
Definition access0 : token :=
  token_of (create_access_token 1%positive None w0).1.
Definition refresh0 : token :=
  token_of (create_refresh_token 1%positive None w0).1.
Definition refresh_no_sub : token :=
  token_of (create_refresh_token 2%positive None w0).1.
Definition no_scope : token := Signed data0 "secret" "HS256".

Definition email0 : token :=
  token_of (create_email_token 1%positive w0).1.

(** A world whose clock stands at [t0] whatever is read, and one in which
    year 9999 ends ten minutes after the first reading. *)
Definition w_still : world :=
  World (fun _ => t0) 0 (<[1%positive := data0]> ∅) [] [].
Definition w_late : world :=
  World (fun n => datetime_end - 600 * us_per_second + Z.of_nat n) 0
        (<[1%positive := data0]> ∅) [] [].

(** The world an issuance of [access0] leaves. *)
Definition w0_after_access : world :=
  (create_access_token 1%positive None w0).2.

End Symbolic.

(** * Properties *)

Section Properties.

Context {lib : Jose} {store : Users} {conf : Settings}.

(** ** Stepping through the issuance functions *)

Lemma timedelta_seconds (s : Z) :
  Z.abs (s / seconds_per_day) <= 999999999 ->
  timedelta 0 s 0 = Ok (s * us_per_second).
Proof.
  intros Hs. unfold timedelta.
  replace (0 * seconds_per_day + 0 * 60 + s) with s by lia.
  destruct (Z.leb_spec (Z.abs (s / seconds_per_day)) 999999999); [done | lia].
Qed.

Lemma datetime_add_in_range (t d : Z) :
  0 <= t + d < datetime_end -> datetime_add t d = Ok (t + d).
Proof.
  intros [Hlo Hhi]. unfold datetime_add. cbv zeta.
  destruct (Z.leb_spec 0 (t + d)); [| lia].
  destruct (Z.ltb_spec (t + d) datetime_end); [done | lia].
Qed.

Lemma issue_steps (data : loc) (d : dict) (w : world) (secs : Z)
    (scope : string) (expire : M Z) :
  heap w !! data = Some d ->
  in_range (clock w (reads w)) secs ->
  (forall w', expire w' =
     (now <- utcnow ;; dl <- lift (timedelta 0 secs 0) ;;
      lift (datetime_add now dl)) w') ->
  (to_encode <- dict_copy data ;;
   exp <- expire ;;
   iat <- utcnow ;;
   dict_update to_encode (stamp iat exp scope) ;;;
   tok <- jwt_encode_call to_encode SECRET_KEY ALGORITHM ;;
   ret tok) w
  = issued (fresh (dom (heap w)))
           (stamp (clock w (S (reads w)))
                  (clock w (reads w) + secs * us_per_second) scope ∪ d) w.
Proof.
  intros Hd [Hs Ht] Hexp.
  unfold bind at 1. unfold dict_copy. rewrite Hd.
  unfold bind at 1. rewrite Hexp.
  unfold bind, utcnow, lift. cbn [clock reads heap jose_encoded stdout].
  rewrite (timedelta_seconds _ Hs), (datetime_add_in_range _ _ Ht).
  unfold dict_update. cbn [clock reads heap jose_encoded stdout].
  rewrite lookup_insert_eq.
  unfold jwt_encode_call. cbn [clock reads heap jose_encoded stdout].
  rewrite lookup_insert_eq.
  destruct (jwt_encode _ _ _) as [r d'] eqn:E.
  unfold issued. rewrite E. cbn [fst snd].
  rewrite !insert_insert_eq. by destruct r.
Qed.

Lemma create_access_token_run (data : loc) (ed : option Z) (d : dict)
    (w : world) :
  heap w !! data = Some d ->
  in_range (clock w (reads w)) (lifetime access_token ed) ->
  create_access_token data ed w
  = issued (fresh (dom (heap w))) (stamped access_token ed d w) w.
Proof.
  intros Hd Hr. unfold create_access_token.
  apply (issue_steps data d w (lifetime access_token ed)); [done | done |].
  intros w'. destruct ed as [s|]; cbn [truthy number lifetime default]; [|done].
  by destruct (s =? 0).
Qed.

Lemma create_refresh_token_run (data : loc) (ed : option Z) (d : dict)
    (w : world) :
  heap w !! data = Some d ->
  in_range (clock w (reads w)) (lifetime refresh_token ed) ->
  create_refresh_token data ed w
  = issued (fresh (dom (heap w))) (stamped refresh_token ed d w) w.
Proof.
  intros Hd Hr. unfold create_refresh_token.
  apply (issue_steps data d w (lifetime refresh_token ed)); [done | done |].
  intros w'. destruct ed as [s|]; cbn [truthy number lifetime default]; [|done].
  by destruct (s =? 0).
Qed.

Lemma create_email_token_run (data : loc) (d : dict) (w : world) :
  heap w !! data = Some d ->
  in_range (clock w (reads w)) (default_lifetime email_token) ->
  create_email_token data w
  = issued (fresh (dom (heap w))) (stamped email_token None d w) w.
Proof.
  intros Hd [Hs Ht]. unfold stamped. cbn [lifetime scope_tag].
  unfold create_email_token.
  unfold bind at 1. unfold dict_copy. rewrite Hd.
  unfold bind at 1. unfold utcnow at 1.
  unfold bind at 1. unfold lift at 1.
  change (timedelta 7 0 0) with (timedelta 0 (default_lifetime email_token) 0).
  rewrite (timedelta_seconds _ Hs).
  unfold bind at 1. unfold lift at 1.
  cbn [clock reads heap jose_encoded stdout].
  rewrite (datetime_add_in_range _ _ Ht).
  unfold bind, utcnow. cbn [clock reads heap jose_encoded stdout].
  unfold dict_update. cbn [clock reads heap jose_encoded stdout].
  rewrite lookup_insert_eq.
  unfold jwt_encode_call. cbn [clock reads heap jose_encoded stdout].
  rewrite lookup_insert_eq.
  destruct (jwt_encode _ _ _) as [r d'] eqn:E.
  unfold issued. rewrite E. cbn [fst snd].
  rewrite !insert_insert_eq. by destruct r.
Qed.

(** Every issuance call that fits the range of [datetime] reaches
    [jwt.encode] with the stamped copy of the caller's dictionary. *)
Lemma issue_run (k : kind) (data : loc) (ed : option Z) (d : dict)
    (w : world) :
  heap w !! data = Some d ->
  in_range (clock w (reads w)) (lifetime k ed) ->
  issue k data ed w = issued (fresh (dom (heap w))) (stamped k ed d w) w.
Proof.
  destruct k; cbn [issue].
  - apply create_access_token_run.
  - apply create_refresh_token_run.
  - intros Hd Hr.
    change (stamped email_token ed d w) with (stamped email_token None d w).
    exact (create_email_token_run data d w Hd Hr).
Qed.

(** ** The stamped claims *)

Lemma stamped_iat (k : kind) (ed : option Z) (d : dict) (w : world) :
  stamped k ed d w !! "iat" = Some (VDatetime (clock w (S (reads w)))).
Proof. unfold stamped, stamp. apply lookup_union_Some_l, lookup_insert_eq. Qed.

Lemma stamped_exp (k : kind) (ed : option Z) (d : dict) (w : world) :
  stamped k ed d w !! "exp"
  = Some (VDatetime (clock w (reads w) + lifetime k ed * us_per_second)).
Proof.
  unfold stamped, stamp. apply lookup_union_Some_l.
  rewrite lookup_insert_ne by done. apply lookup_insert_eq.
Qed.

Lemma stamped_scope (k : kind) (ed : option Z) (d : dict) (w : world) :
  stamped k ed d w !! "scope" = Some (VStr (scope_tag k)).
Proof.
  unfold stamped, stamp. apply lookup_union_Some_l.
  rewrite !lookup_insert_ne by done. apply lookup_insert_eq.
Qed.



(** ** Issuance *)

(** C7.  Each of the three issuance functions hands to [jwt.encode] claims
    whose [iat] is the reading of the clock taken when stamping and whose
    [scope] is the tag of its own kind, whatever entries the caller's
    dictionary holds; the token returned is the encoding of those claims. *)
Theorem issue_stamps_iat_and_scope (k : kind) (data : loc) (ed : option Z)
    (d : dict) (w : world) :
  heap w !! data = Some d ->
  in_range (clock w (reads w)) (lifetime k ed) ->
  exists claims : dict,
    jose_encoded (issue k data ed w).2 = claims :: jose_encoded w /\
    (issue k data ed w).1 = (jwt_encode claims SECRET_KEY ALGORITHM).1 /\
    claims !! "iat" = Some (VDatetime (clock w (S (reads w)))) /\
    claims !! "scope" = Some (VStr (scope_tag k)).
Proof.
  intros Hd Hr. exists (stamped k ed d w).
  rewrite (issue_run k data ed d w Hd Hr). cbn [issued fst snd jose_encoded].
  split_and!; [done | done | apply stamped_iat | apply stamped_scope].
Qed.



(** ** The caller's dictionary *)


Lemma expire_frame (secs_days secs mins : Z) (w1 : world) :
  heap ((now <- utcnow ;; dl <- lift (timedelta secs_days secs mins) ;;
         lift (datetime_add now dl)) w1).2 = heap w1.
Proof.
  unfold bind, utcnow, lift.
  destruct (timedelta _ _ _); [|done]. by destruct (datetime_add _ _).
Qed.

(** [create_email_token] computes its expiry in line; grouping those steps
    gives it the shape of the other two. *)
Lemma create_email_token_steps (data : loc) (w : world) :
  create_email_token data w
  = (to_encode <- dict_copy data ;;
     exp <- (now <- utcnow ;; dl <- lift (timedelta 7 0 0) ;;
             lift (datetime_add now dl)) ;;
     iat <- utcnow ;;
     dict_update to_encode (stamp iat exp "email_token") ;;;
     tok <- jwt_encode_call to_encode SECRET_KEY ALGORITHM ;;
     ret tok) w.
Proof.
  unfold create_email_token, bind.
  destruct (dict_copy data w) as [[l|e] w1]; [|done].
  destruct (utcnow w1) as [[now|e] w2]; [|done].
  destruct (lift (timedelta 7 0 0) w2) as [[dl|e] w3]; [|done].
  by destruct (lift (datetime_add now dl) w3) as [[y|e] w4].
Qed.



(** ** Resolution *)

Lemma py_eq_str_true (v : value) (s : string) :
  py_eq_str v s = true <-> v = VStr s.
Proof.
  destruct v; cbn; try (split; [discriminate | discriminate]).
  rewrite bool_decide_eq_true. split; [by intros -> | by intros [= ->]].
Qed.

Lemma py_eq_str_false (v : value) (s : string) :
  v <> VStr s -> py_eq_str v s = false.
Proof.
  intros Hv. destruct (py_eq_str v s) eqn:E; [|done].
  by apply py_eq_str_true in E.
Qed.

(** What [get_current_user] returns, by the outcome of [jwt.decode] at the
    reading of the clock it takes. *)
Lemma get_current_user_run (token : Token) (db : Session) (w : world) :
  (get_current_user token db w).1 =
  match jwt_decode token SECRET_KEY [ALGORITHM] (clock w (reads w)) with
  | inl _ => Raise credentials_exception
  | inr payload =>
      if py_eq_str (dict_get payload "scope") "access_token" then
        if is_None (dict_get payload "sub") then Raise credentials_exception
        else match get_user_by_email (dict_get payload "sub") db with
             | Some user => Ok user
             | None => Raise credentials_exception
             end
      else Raise credentials_exception
  end.
Proof.
  unfold get_current_user, bind, try_except_JWTError, jwt_decode_call, bind,
    utcnow. cbn [clock reads].
  destruct (jwt_decode _ _ _ _) as [e|payload]; [done|]. unfold ret.
  destruct (py_eq_str _ _); [|done].
  destruct (is_None _); [done|].
  by destruct (get_user_by_email _ _).
Qed.

Lemma decode_refresh_token_run (refresh_token : Token) (w : world) :
  (decode_refresh_token refresh_token w).1 =
  match jwt_decode refresh_token SECRET_KEY [ALGORITHM] (clock w (reads w))
  with
  | inl _ =>
      Raise (HTTPException HTTP_401_UNAUTHORIZED
                           "Could not validate credentials" None)
  | inr payload =>
      match payload !! "scope" with
      | None => Raise (KeyError "scope")
      | Some scope =>
          if py_eq_str scope "refresh_token" then
            match payload !! "sub" with
            | None => Raise (KeyError "sub")
            | Some email => Ok email
            end
          else Raise (HTTPException HTTP_401_UNAUTHORIZED
                                    "Invalid scope for token" None)
      end
  end.
Proof.
  unfold decode_refresh_token, try_except_JWTError, bind, jwt_decode_call,
    bind, utcnow, dict_getitem. cbn [clock reads].
  destruct (jwt_decode _ _ _ _) as [e|payload]; [done|]. unfold ret.
  destruct (payload !! "scope") as [scope|]; [|done].
  destruct (py_eq_str _ _); [|done].
  by destruct (payload !! "sub").
Qed.

Lemma get_email_from_token_run (token : Token) (w : world) :
  (get_email_from_token token w).1 =
  match jwt_decode token SECRET_KEY [ALGORITHM] (clock w (reads w)) with
  | inl _ =>
      Raise (HTTPException HTTP_422_UNPROCESSABLE_ENTITY
                           "Invalid token for email verification" None)
  | inr payload =>
      match payload !! "scope" with
      | None => Raise (KeyError "scope")
      | Some scope =>
          if py_eq_str scope "email_token" then
            match payload !! "sub" with
            | None => Raise (KeyError "sub")
            | Some email => Ok email
            end
          else Raise (HTTPException HTTP_401_UNAUTHORIZED
                                    "Invalid scope for token" None)
      end
  end.
Proof.
  unfold get_email_from_token, try_except_JWTError, bind, jwt_decode_call,
    bind, utcnow, dict_getitem. cbn [clock reads].
  destruct (jwt_decode _ _ _ _) as [e|payload]; [done|]. unfold ret.
  destruct (payload !! "scope") as [scope|]; [|done].
  destruct (py_eq_str _ _); [|done].
  by destruct (payload !! "sub").
Qed.

(** When jose ends in a [JWTError] or a payload and the user store in a
    user or none, the only exception [get_current_user] raises is
    [credentials_exception]. *)
Lemma get_current_user_raises_one_error (token : Token) (db : Session)
    (w : world) (e : exn) :
  (get_current_user token db w).1 = Raise e -> e = credentials_exception.
Proof.
  rewrite get_current_user_run.
  destruct (jwt_decode _ _ _ _) as [je|payload]; [by intros [= <-]|].
  destruct (py_eq_str _ _); [|by intros [= <-]].
  destruct (is_None _); [by intros [= <-]|].
  destruct (get_user_by_email _ _); [done | by intros [= <-]].
Qed.

(** C1.  On each way of failing (jose rejects the token for its signature,
    its structure or its expiry; the scope is not ["access_token"]; there is
    no subject; the user store has no such user) [get_current_user] raises
    the one exception [credentials_exception]: status 401, detail
    ["Could not validate credentials"], the same headers. *)
Theorem get_current_user_opaque (token : Token) (db : Session) (w : world) :
  auth_failure token db (clock w (reads w)) ->
  (get_current_user token db w).1
  = Raise (HTTPException HTTP_401_UNAUTHORIZED
                         "Could not validate credentials"
                         (Some {[ "WWW-Authenticate" := "Bearer" ]})).
Proof.
  intros Hfail. rewrite get_current_user_run.
  destruct Hfail as [e He | payload Hp Hscope | payload Hp Hsub
                    | payload Hp Huser]; rewrite ?He, ?Hp.
  - done.
  - by rewrite (py_eq_str_false _ _ Hscope).
  - rewrite Hsub. by destruct (py_eq_str _ _).
  - rewrite Huser. destruct (py_eq_str _ _); [|done].
    by destruct (is_None _).
Qed.

(** [get_email_from_token] answers a [JWTError] of [jwt.decode] with
    status 422, and a payload that has a scope entry other than
    ["email_token"] with status 401 and detail ["Invalid scope for
    token"]. *)
Theorem get_email_from_token_errors (token : Token) (w : world) :
  (forall e : jose_error,
     jwt_decode token SECRET_KEY [ALGORITHM] (clock w (reads w)) = inl e ->
     (get_email_from_token token w).1
     = Raise (HTTPException 422 "Invalid token for email verification"
                            None)) /\
  (forall (payload : dict) (scope : value),
     jwt_decode token SECRET_KEY [ALGORITHM] (clock w (reads w))
     = inr payload ->
     payload !! "scope" = Some scope ->
     scope <> VStr "email_token" ->
     (get_email_from_token token w).1
     = Raise (HTTPException 401 "Invalid scope for token" None)).
Proof.
  split.
  - intros e He. by rewrite get_email_from_token_run, He.
  - intros payload scope Hp Hs Hne.
    by rewrite get_email_from_token_run, Hp, Hs, (py_eq_str_false _ _ Hne).
Qed.

(** C3, where the code departs from it.  A payload that [jwt.decode]
    accepts and that has no ["scope"] entry is a token whose scope is not
    ["email_token"], yet [get_email_from_token] does not answer it with the
    401 of a wrong scope: the subscript raises [KeyError], which the [try]
    does not catch. *)
Theorem get_email_from_token_without_scope (token : Token) (w : world)
    (payload : dict) :
  jwt_decode token SECRET_KEY [ALGORITHM] (clock w (reads w)) = inr payload ->
  payload !! "scope" = None ->
  dict_get payload "scope" <> VStr "email_token" /\
  (get_email_from_token token w).1 = Raise (KeyError "scope") /\
  (get_email_from_token token w).1
  <> Raise (HTTPException 401 "Invalid scope for token" None).
Proof.
  intros Hp Hs. rewrite get_email_from_token_run, Hp, Hs.
  split_and!; [| done | done].
  unfold dict_get. by rewrite Hs.
Qed.

(** C5, where the code departs from it.  A payload that [jwt.decode]
    accepts but that lacks ["scope"], or has the expected scope and lacks
    ["sub"], makes [decode_refresh_token] and [get_email_from_token] raise a
    bare [KeyError]: the subscript is inside the [try] but only [JWTError]
    is caught. *)
Theorem missing_claim_escapes_as_KeyError (token : Token) (w : world)
    (payload : dict) :
  jwt_decode token SECRET_KEY [ALGORITHM] (clock w (reads w)) = inr payload ->
  (payload !! "scope" = None ->
   (decode_refresh_token token w).1 = Raise (KeyError "scope") /\
   (get_email_from_token token w).1 = Raise (KeyError "scope")) /\
  (payload !! "sub" = None ->
   (payload !! "scope" = Some (VStr "refresh_token") ->
    (decode_refresh_token token w).1 = Raise (KeyError "sub")) /\
   (payload !! "scope" = Some (VStr "email_token") ->
    (get_email_from_token token w).1 = Raise (KeyError "sub"))).
Proof.
  intros Hp. split.
  - intros Hs.
    by rewrite decode_refresh_token_run, get_email_from_token_run, Hp, Hs.
  - intros Hsub. split; intros Hs.
    + by rewrite decode_refresh_token_run, Hp, Hs, Hsub.
    + by rewrite get_email_from_token_run, Hp, Hs, Hsub.
Qed.

(** ** Scope enforcement *)

(** A token that an issuance function returns is jose's encoding of a copy
    of the caller's dictionary stamped with the scope of that function. *)
Lemma issue_steps_ok (data : loc) (d : dict) (w w' : world) (scope : string)
    (expire : M Z) (tok : Token) :
  (forall w1, heap (expire w1).2 = heap w1) ->
  heap w !! data = Some d ->
  (to_encode <- dict_copy data ;;
   exp <- expire ;;
   iat <- utcnow ;;
   dict_update to_encode (stamp iat exp scope) ;;;
   t <- jwt_encode_call to_encode SECRET_KEY ALGORITHM ;;
   ret t) w = (Ok tok, w') ->
  exists (iat exp : Z) (rest : dict),
    jwt_encode (stamp iat exp scope ∪ d) SECRET_KEY ALGORITHM
    = (Ok tok, rest).
Proof.
  intros Hexp Hd. unfold bind at 1. unfold dict_copy. rewrite Hd.
  set (l := fresh (dom (heap w))).
  set (w1 := World _ _ (<[l:=d]> (heap w)) _ _).
  unfold bind at 1. pose proof (Hexp w1) as Hh.
  destruct (expire w1) as [[e|err] w2]; cbn [snd] in *; [|done].
  unfold bind at 1. unfold utcnow. unfold bind at 1. unfold dict_update.
  cbn [clock reads heap jose_encoded stdout]. rewrite Hh. subst w1.
  cbn [heap]. rewrite lookup_insert_eq.
  unfold bind, jwt_encode_call. cbn [clock reads heap jose_encoded stdout].
  rewrite lookup_insert_eq.
  destruct (jwt_encode _ _ _) as [[t|err] d'] eqn:E; [|done].
  unfold ret. intros [= -> _]. by exists (clock w2 (reads w2)), e, d'.
Qed.

Lemma issue_ok_encoded (k : kind) (data : loc) (ed : option Z) (d : dict)
    (w w' : world) (tok : Token) :
  heap w !! data = Some d ->
  issue k data ed w = (Ok tok, w') ->
  exists claims rest : dict,
    jwt_encode claims SECRET_KEY ALGORITHM = (Ok tok, rest) /\
    claims !! "scope" = Some (VStr (scope_tag k)).
Proof.
  intros Hd Hrun.
  assert (exists (iat exp : Z) (rest : dict),
            jwt_encode (stamp iat exp (scope_tag k) ∪ d) SECRET_KEY ALGORITHM
            = (Ok tok, rest)) as (iat & exp & rest & Henc).
  { destruct k; cbn [issue scope_tag] in *.
    - eapply issue_steps_ok; [| done | exact Hrun].
      intros w1. destruct (truthy ed); apply expire_frame.
    - eapply issue_steps_ok; [| done | exact Hrun].
      intros w1. destruct (truthy ed); apply expire_frame.
    - rewrite create_email_token_steps in Hrun.
      eapply issue_steps_ok; [| done | exact Hrun].
      intros w1. apply expire_frame. }
  exists (stamp iat exp (scope_tag k) ∪ d), rest. split; [done|].
  unfold stamp. apply lookup_union_Some_l.
  rewrite !lookup_insert_ne by done. apply lookup_insert_eq.
Qed.

(** When [decode_refresh_token] returns an email, the payload jose decoded
    has scope ["refresh_token"] and that email as subject. *)
Lemma decode_refresh_token_returns (tok : Token) (w : world) (email : value) :
  (decode_refresh_token tok w).1 = Ok email ->
  exists payload : dict,
    jwt_decode tok SECRET_KEY [ALGORITHM] (clock w (reads w)) = inr payload /\
    payload !! "scope" = Some (VStr "refresh_token") /\
    payload !! "sub" = Some email.
Proof.
  rewrite decode_refresh_token_run.
  destruct (jwt_decode _ _ _ _) as [e|payload]; [done|].
  destruct (payload !! "scope") as [scope|] eqn:Hs; [|done].
  destruct (py_eq_str scope "refresh_token") eqn:Heq; [|done].
  apply py_eq_str_true in Heq as ->.
  destruct (payload !! "sub") as [sub|] eqn:Hsub; [|done].
  intros [= ->]. by exists payload.
Qed.

(** Likewise for [get_email_from_token] and scope ["email_token"]. *)
Lemma get_email_from_token_returns (tok : Token) (w : world) (email : value) :
  (get_email_from_token tok w).1 = Ok email ->
  exists payload : dict,
    jwt_decode tok SECRET_KEY [ALGORITHM] (clock w (reads w)) = inr payload /\
    payload !! "scope" = Some (VStr "email_token") /\
    payload !! "sub" = Some email.
Proof.
  rewrite get_email_from_token_run.
  destruct (jwt_decode _ _ _ _) as [e|payload]; [done|].
  destruct (payload !! "scope") as [scope|] eqn:Hs; [|done].
  destruct (py_eq_str scope "email_token") eqn:Heq; [|done].
  apply py_eq_str_true in Heq as ->.
  destruct (payload !! "sub") as [sub|] eqn:Hsub; [|done].
  intros [= ->]. by exists payload.
Qed.

(** C2.  Provided jose returns the scope it was given, a token that
    [create_access_token] issued is refused by [decode_refresh_token] (401,
    either detail) and by [get_email_from_token] (401 for the scope, or 422
    when jose rejects the token), whenever it is presented; and neither
    function returns an email unless the decoded payload carries the scope
    it expects. *)
Theorem access_token_rejected_elsewhere (data : loc) (ed : option Z)
    (d : dict) (w w1 w2 : world) (tok : Token) :
  jose_keeps_scope ->
  heap w !! data = Some d ->
  create_access_token data ed w = (Ok tok, w1) ->
  ((decode_refresh_token tok w2).1
   = Raise (HTTPException 401 "Invalid scope for token" None) \/
   (decode_refresh_token tok w2).1
   = Raise (HTTPException 401 "Could not validate credentials" None)) /\
  ((get_email_from_token tok w2).1
   = Raise (HTTPException 401 "Invalid scope for token" None) \/
   (get_email_from_token tok w2).1
   = Raise (HTTPException 422 "Invalid token for email verification"
                          None)) /\
  (forall (t : Token) (w3 : world) (email : value),
     ((decode_refresh_token t w3).1 = Ok email ->
      exists payload : dict,
        jwt_decode t SECRET_KEY [ALGORITHM] (clock w3 (reads w3))
        = inr payload /\
        payload !! "scope" = Some (VStr "refresh_token")) /\
     ((get_email_from_token t w3).1 = Ok email ->
      exists payload : dict,
        jwt_decode t SECRET_KEY [ALGORITHM] (clock w3 (reads w3))
        = inr payload /\
        payload !! "scope" = Some (VStr "email_token"))).
Proof.
  intros Hjose Hd Hrun.
  destruct (issue_ok_encoded access_token data ed d w w1 tok Hd Hrun)
    as (claims & rest & Henc & Hscope).
  cbn [scope_tag] in Hscope.
  split_and!.
  - rewrite decode_refresh_token_run.
    destruct (jwt_decode _ _ _ _) as [e|payload] eqn:Hdec; [by right|].
    rewrite (Hjose _ _ _ _ _ _ _ _ Henc Hscope Hdec). by left.
  - rewrite get_email_from_token_run.
    destruct (jwt_decode _ _ _ _) as [e|payload] eqn:Hdec; [by right|].
    rewrite (Hjose _ _ _ _ _ _ _ _ Henc Hscope Hdec). by left.
  - intros t w3 email. split; intros Hok.
    + apply decode_refresh_token_returns in Hok as (p & ? & ? & ?).
      by exists p.
    + apply get_email_from_token_returns in Hok as (p & ? & ? & ?).
      by exists p.
Qed.

End Properties.

(** * Further properties of the service *)

Section MoreProperties.

Context {lib : Jose} {store : Users} {conf : Settings}.

(** ** What the resolution functions return and raise *)

(** X2.  [get_current_user] returns a user exactly when jose accepts the
    token, the payload has scope ["access_token"] and a subject that is not
    [None], and the user store has a user for that subject; the user
    returned is that one. *)
Theorem get_current_user_returns_iff (token : Token) (db : Session)
    (w : world) (u : User) :
  (get_current_user token db w).1 = Ok u <->
  exists payload : dict,
    jwt_decode token SECRET_KEY [ALGORITHM] (clock w (reads w))
    = inr payload /\
    dict_get payload "scope" = VStr "access_token" /\
    dict_get payload "sub" <> VNone /\
    get_user_by_email (dict_get payload "sub") db = Some u.
Proof.
  rewrite get_current_user_run. split.
  - destruct (jwt_decode _ _ _ _) as [e|payload]; [done|].
    destruct (py_eq_str _ _) eqn:Hscope; [|done].
    destruct (is_None _) eqn:Hsub; [done|].
    destruct (get_user_by_email _ _) as [u'|] eqn:Hu; [|done].
    intros [= ->]. exists payload. split_and!; [done | | | done].
    + by apply py_eq_str_true.
    + intros Hn. by rewrite Hn in Hsub.
  - intros (payload & -> & Hscope & Hsub & Hu).
    rewrite Hscope, Hu. cbn.
    rewrite bool_decide_eq_true_2 by done.
    by destruct (dict_get payload "sub").
Qed.

(** X3.  [decode_refresh_token] returns a value exactly when jose accepts
    the token and the payload has scope ["refresh_token"] and a ["sub"]
    entry, and it returns that entry; [get_email_from_token] likewise with
    scope ["email_token"]. *)
Theorem resolvers_return_iff (tok : Token) (w : world) (email : value) :
  ((decode_refresh_token tok w).1 = Ok email <->
   exists payload : dict,
     jwt_decode tok SECRET_KEY [ALGORITHM] (clock w (reads w))
     = inr payload /\
     payload !! "scope" = Some (VStr "refresh_token") /\
     payload !! "sub" = Some email) /\
  ((get_email_from_token tok w).1 = Ok email <->
   exists payload : dict,
     jwt_decode tok SECRET_KEY [ALGORITHM] (clock w (reads w))
     = inr payload /\
     payload !! "scope" = Some (VStr "email_token") /\
     payload !! "sub" = Some email).
Proof.
  split; split.
  - apply decode_refresh_token_returns.
  - intros (payload & Hp & Hs & Hsub).
    rewrite decode_refresh_token_run, Hp, Hs, Hsub. cbn.
    by rewrite bool_decide_eq_true_2.
  - apply get_email_from_token_returns.
  - intros (payload & Hp & Hs & Hsub).
    rewrite get_email_from_token_run, Hp, Hs, Hsub. cbn.
    by rewrite bool_decide_eq_true_2.
Qed.

(** X5.  The detail of the 401 that [decode_refresh_token] raises tells the
    caller what happened: it is ["Could not validate credentials"] exactly
    when jose rejected the token, and ["Invalid scope for token"] exactly
    when jose accepted it and the payload has a scope other than
    ["refresh_token"]. *)
Theorem decode_refresh_token_detail_iff (tok : Token) (w : world) :
  ((decode_refresh_token tok w).1
   = Raise (HTTPException 401 "Could not validate credentials" None) <->
   exists e : jose_error,
     jwt_decode tok SECRET_KEY [ALGORITHM] (clock w (reads w)) = inl e) /\
  ((decode_refresh_token tok w).1
   = Raise (HTTPException 401 "Invalid scope for token" None) <->
   exists (payload : dict) (scope : value),
     jwt_decode tok SECRET_KEY [ALGORITHM] (clock w (reads w))
     = inr payload /\
     payload !! "scope" = Some scope /\ scope <> VStr "refresh_token").
Proof.
  rewrite decode_refresh_token_run. split; split.
  - destruct (jwt_decode _ _ _ _) as [je|payload]; [by exists je|].
    destruct (payload !! "scope") as [scope|]; [|done].
    destruct (py_eq_str _ _); [|done]. by destruct (payload !! "sub").
  - by intros [je ->].
  - destruct (jwt_decode _ _ _ _) as [je|payload]; [done|].
    destruct (payload !! "scope") as [scope|] eqn:Hs; [|done].
    destruct (py_eq_str _ _) eqn:Heq; [by destruct (payload !! "sub")|].
    intros _. exists payload, scope. split_and!; [done | done |].
    intros ->. cbn in Heq. by rewrite bool_decide_eq_true_2 in Heq.
  - intros (payload & scope & -> & -> & Hne).
    by rewrite (py_eq_str_false _ _ Hne).
Qed.

(** X6.  Resolving a token changes no dictionary, hands nothing to
    [jwt.encode] and prints nothing, with one exception: when jose raises a
    [JWTError], [get_email_from_token] prints jose's message before it
    raises. *)
Theorem resolution_leaves_the_state (tok : Token) (db : Session)
    (w : world) :
  (heap (get_current_user tok db w).2 = heap w /\
   jose_encoded (get_current_user tok db w).2 = jose_encoded w /\
   stdout (get_current_user tok db w).2 = stdout w) /\
  (heap (decode_refresh_token tok w).2 = heap w /\
   jose_encoded (decode_refresh_token tok w).2 = jose_encoded w /\
   stdout (decode_refresh_token tok w).2 = stdout w) /\
  (heap (get_email_from_token tok w).2 = heap w /\
   jose_encoded (get_email_from_token tok w).2 = jose_encoded w /\
   stdout (get_email_from_token tok w).2
   = match jwt_decode tok SECRET_KEY [ALGORITHM] (clock w (reads w)) with
     | inl e => jose_msg e :: stdout w
     | inr _ => stdout w
     end).
Proof.
  split_and!.
  all: unfold get_current_user, decode_refresh_token, get_email_from_token,
    bind, try_except_JWTError, jwt_decode_call, bind, utcnow, dict_getitem;
    cbn [clock reads];
    destruct (jwt_decode _ _ _ _) as [e|payload]; [done|]; unfold ret.
  1-3: destruct (py_eq_str _ _); [|done];
    destruct (is_None _); [done|];
    by destruct (get_user_by_email _ _).
  all: destruct (payload !! "scope") as [scope|]; [|done];
    destruct (py_eq_str _ _); [|done];
    by destruct (payload !! "sub").
Qed.

(** ** Tokens and the kind they were issued for *)

(** The claims behind a token that an issuance function returned: the scope
    of the function, and the caller's entries under every key that is not
    stamped. *)
Lemma issue_ok_claims (k : kind) (data : loc) (ed : option Z) (d : dict)
    (w w' : world) (tok : Token) :
  heap w !! data = Some d ->
  issue k data ed w = (Ok tok, w') ->
  exists claims rest : dict,
    jwt_encode claims SECRET_KEY ALGORITHM = (Ok tok, rest) /\
    claims !! "scope" = Some (VStr (scope_tag k)) /\
    (forall key : string,
       key <> "iat"%string -> key <> "exp"%string ->
       key <> "scope"%string -> claims !! key = d !! key).
Proof.
  intros Hd Hrun.
  assert (exists (iat exp : Z) (rest : dict),
            jwt_encode (stamp iat exp (scope_tag k) ∪ d) SECRET_KEY ALGORITHM
            = (Ok tok, rest)) as (iat & exp & rest & Henc).
  { destruct k; cbn [issue scope_tag] in *.
    - eapply issue_steps_ok; [| done | exact Hrun].
      intros w1. destruct (truthy ed); apply expire_frame.
    - eapply issue_steps_ok; [| done | exact Hrun].
      intros w1. destruct (truthy ed); apply expire_frame.
    - rewrite create_email_token_steps in Hrun.
      eapply issue_steps_ok; [| done | exact Hrun].
      intros w1. apply expire_frame. }
  exists (stamp iat exp (scope_tag k) ∪ d), rest. split_and!; [done | |].
  - unfold stamp. apply lookup_union_Some_l.
    rewrite !lookup_insert_ne by done. apply lookup_insert_eq.
  - intros key Hi He Hs. unfold stamp. apply lookup_union_r.
    rewrite !lookup_insert_ne by done. apply lookup_empty.
Qed.

Lemma scope_tag_inj (k k' : kind) : scope_tag k = scope_tag k' -> k = k'.
Proof. by destruct k, k'. Qed.

(** X7.  Provided jose returns the scope it was given, a token issued for
    one kind gets nothing from the resolution functions of the other two
    kinds, whenever it is presented: they return no value, and when jose
    returns the payload, [get_current_user] answers with
    [credentials_exception] and the other two with the 401 of detail
    ["Invalid scope for token"]. *)
Theorem token_kinds_do_not_cross (k : kind) (data : loc) (ed : option Z)
    (d : dict) (w w1 w2 : world) (tok : Token) (db : Session) :
  jose_keeps_scope ->
  heap w !! data = Some d ->
  issue k data ed w = (Ok tok, w1) ->
  (k <> access_token ->
   (forall u : User, (get_current_user tok db w2).1 <> Ok u) /\
   (forall payload : dict,
      jwt_decode tok SECRET_KEY [ALGORITHM] (clock w2 (reads w2))
      = inr payload ->
      (get_current_user tok db w2).1
      = Raise (HTTPException 401 "Could not validate credentials"
                             (Some {[ "WWW-Authenticate" := "Bearer" ]})))) /\
  (k <> refresh_token ->
   (forall v : value, (decode_refresh_token tok w2).1 <> Ok v) /\
   (forall payload : dict,
      jwt_decode tok SECRET_KEY [ALGORITHM] (clock w2 (reads w2))
      = inr payload ->
      (decode_refresh_token tok w2).1
      = Raise (HTTPException 401 "Invalid scope for token" None))) /\
  (k <> email_token ->
   (forall v : value, (get_email_from_token tok w2).1 <> Ok v) /\
   (forall payload : dict,
      jwt_decode tok SECRET_KEY [ALGORITHM] (clock w2 (reads w2))
      = inr payload ->
      (get_email_from_token tok w2).1
      = Raise (HTTPException 401 "Invalid scope for token" None))).
Proof.
  intros Hjose Hd Hrun.
  destruct (issue_ok_claims k data ed d w w1 tok Hd Hrun)
    as (claims & rest & Henc & Hscope & _).
  assert (forall k' : kind, k <> k' ->
            py_eq_str (VStr (scope_tag k)) (scope_tag k') = false) as Hother.
  { intros k' Hk. apply py_eq_str_false. intros [= Heq].
    by apply scope_tag_inj in Heq. }
  split_and!; intros Hk.
  - pose proof (Hother access_token Hk) as Hf. cbn [scope_tag] in Hf.
    rewrite get_current_user_run.
    destruct (jwt_decode _ _ _ _) as [e|payload] eqn:Hdec.
    { split; [done | by intros p [=]]. }
    unfold dict_get. rewrite (Hjose _ _ _ _ _ _ _ _ Henc Hscope Hdec).
    cbn [default from_option id]. rewrite Hf. by split.
  - pose proof (Hother refresh_token Hk) as Hf. cbn [scope_tag] in Hf.
    rewrite decode_refresh_token_run.
    destruct (jwt_decode _ _ _ _) as [e|payload] eqn:Hdec.
    { split; [done | by intros p [=]]. }
    rewrite (Hjose _ _ _ _ _ _ _ _ Henc Hscope Hdec), Hf. by split.
  - pose proof (Hother email_token Hk) as Hf. cbn [scope_tag] in Hf.
    rewrite get_email_from_token_run.
    destruct (jwt_decode _ _ _ _) as [e|payload] eqn:Hdec.
    { split; [done | by intros p [=]]. }
    rewrite (Hjose _ _ _ _ _ _ _ _ Henc Hscope Hdec), Hf. by split.
Qed.

(** X8.  Provided jose returns the scope and the subject it was given, an
    access token issued from a dictionary whose ["sub"] is the string
    [email] authenticates the user the store holds for [email] and nobody
    else: [get_current_user] returns [u] exactly when jose accepts the
    token and the lookup of [email] gives [u]. *)
Theorem access_token_authenticates_its_subject (data : loc) (ed : option Z)
    (d : dict) (w w1 w2 : world) (tok : Token) (db : Session)
    (email : string) (u : User) :
  jose_keeps "scope" -> jose_keeps "sub" ->
  heap w !! data = Some d ->
  d !! "sub" = Some (VStr email) ->
  create_access_token data ed w = (Ok tok, w1) ->
  (get_current_user tok db w2).1 = Ok u <->
  accepted tok (clock w2 (reads w2)) /\
  get_user_by_email (VStr email) db = Some u.
Proof.
  intros Hscope Hsub Hd Hemail Hrun.
  destruct (issue_ok_claims access_token data ed d w w1 tok Hd Hrun)
    as (claims & rest & Henc & Hcs & Hother).
  assert (claims !! "sub" = Some (VStr email)) as Hcsub.
  { by rewrite Hother. }
  rewrite get_current_user_run. unfold accepted.
  destruct (jwt_decode _ _ _ _) as [e|payload] eqn:Hdec.
  { split; [done | by intros [[p ?] _]]. }
  unfold dict_get.
  rewrite (Hscope _ _ _ _ _ _ _ _ Henc Hcs Hdec),
    (Hsub _ _ _ _ _ _ _ _ Henc Hcsub Hdec). cbn.
  destruct (get_user_by_email _ _) as [u'|].
  - split; [intros [= ->]; split; [by eexists | done] | by intros [_ [= ->]]].
  - split; [done | by intros [_ ?]].
Qed.

(** X9.  Under the same proviso, a refresh token issued from a dictionary
    whose ["sub"] is the string [email] gives that string back:
    [decode_refresh_token] returns [v] exactly when jose accepts the token
    and [v] is [email]. *)
Theorem refresh_token_returns_its_subject (data : loc) (ed : option Z)
    (d : dict) (w w1 w2 : world) (tok : Token) (email : string)
    (v : value) :
  jose_keeps "scope" -> jose_keeps "sub" ->
  heap w !! data = Some d ->
  d !! "sub" = Some (VStr email) ->
  create_refresh_token data ed w = (Ok tok, w1) ->
  (decode_refresh_token tok w2).1 = Ok v <->
  accepted tok (clock w2 (reads w2)) /\ v = VStr email.
Proof.
  intros Hscope Hsub Hd Hemail Hrun.
  destruct (issue_ok_claims refresh_token data ed d w w1 tok Hd Hrun)
    as (claims & rest & Henc & Hcs & Hother).
  assert (claims !! "sub" = Some (VStr email)) as Hcsub.
  { by rewrite Hother. }
  rewrite decode_refresh_token_run. unfold accepted.
  destruct (jwt_decode _ _ _ _) as [e|payload] eqn:Hdec.
  { split; [done | by intros [[p ?] _]]. }
  rewrite (Hscope _ _ _ _ _ _ _ _ Henc Hcs Hdec),
    (Hsub _ _ _ _ _ _ _ _ Henc Hcsub Hdec). cbn.
  split; [intros [= <-]; split; [by eexists | done] | by intros [_ ->]].
Qed.

(** X10.  The same for an email token and [get_email_from_token]. *)
Theorem email_token_returns_its_subject (data : loc) (d : dict)
    (w w1 w2 : world) (tok : Token) (email : string) (v : value) :
  jose_keeps "scope" -> jose_keeps "sub" ->
  heap w !! data = Some d ->
  d !! "sub" = Some (VStr email) ->
  create_email_token data w = (Ok tok, w1) ->
  (get_email_from_token tok w2).1 = Ok v <->
  accepted tok (clock w2 (reads w2)) /\ v = VStr email.
Proof.
  intros Hscope Hsub Hd Hemail Hrun.
  destruct (issue_ok_claims email_token data None d w w1 tok Hd Hrun)
    as (claims & rest & Henc & Hcs & Hother).
  assert (claims !! "sub" = Some (VStr email)) as Hcsub.
  { by rewrite Hother. }
  rewrite get_email_from_token_run. unfold accepted.
  destruct (jwt_decode _ _ _ _) as [e|payload] eqn:Hdec.
  { split; [done | by intros [[p ?] _]]. }
  rewrite (Hscope _ _ _ _ _ _ _ _ Henc Hcs Hdec),
    (Hsub _ _ _ _ _ _ _ _ Henc Hcsub Hdec). cbn.
  split; [intros [= <-]; split; [by eexists | done] | by intros [_ ->]].
Qed.

(** ** The edges of issuance *)

(** The steps of an issuance whose expiry does not fit: the copy is made,
    the clock is read once, and [OverflowError] ends the call before the
    stamp. *)
Lemma issue_steps_overflow (data : loc) (d : dict) (w : world) (secs : Z)
    (scope : string) (expire : M Z) :
  heap w !! data = Some d ->
  ~ in_range (clock w (reads w)) secs ->
  (forall w', expire w' =
     (now <- utcnow ;; dl <- lift (timedelta 0 secs 0) ;;
      lift (datetime_add now dl)) w') ->
  (to_encode <- dict_copy data ;;
   exp <- expire ;;
   iat <- utcnow ;;
   dict_update to_encode (stamp iat exp scope) ;;;
   tok <- jwt_encode_call to_encode SECRET_KEY ALGORITHM ;;
   ret tok) w
  = (Raise OverflowError,
     World (clock w) (S (reads w)) (<[fresh (dom (heap w)) := d]> (heap w))
           (jose_encoded w) (stdout w)).
Proof.
  intros Hd Hout Hexp.
  unfold bind at 1. unfold dict_copy. rewrite Hd.
  unfold bind at 1. rewrite Hexp.
  unfold bind, utcnow, lift. cbn [clock reads heap jose_encoded stdout].
  unfold timedelta.
  replace (0 * seconds_per_day + 0 * 60 + secs) with secs by lia.
  destruct (Z.leb_spec (Z.abs (secs / seconds_per_day)) 999999999)
    as [Hs|Hs]; [|done].
  unfold datetime_add. cbv zeta.
  destruct (Z.leb_spec 0 (clock w (reads w) + secs * us_per_second));
    [|done].
  destruct (Z.ltb_spec (clock w (reads w) + secs * us_per_second)
                       datetime_end); [|done].
  exfalso. apply Hout. unfold in_range. lia.
Qed.

(** X11.  When the requested expiry cannot be represented (a duration of
    more than 999999999 days, or an expiry outside the years 1 to 9999) the
    issuance function raises [OverflowError]; it has read the clock once and
    has not called [jwt.encode]. *)
Theorem issue_out_of_range (k : kind) (data : loc) (ed : option Z)
    (d : dict) (w : world) :
  heap w !! data = Some d ->
  ~ in_range (clock w (reads w)) (lifetime k ed) ->
  (issue k data ed w).1 = Raise OverflowError /\
  jose_encoded (issue k data ed w).2 = jose_encoded w /\
  reads (issue k data ed w).2 = S (reads w).
Proof.
  intros Hd Hout.
  assert (issue k data ed w
          = (Raise OverflowError,
             World (clock w) (S (reads w))
                   (<[fresh (dom (heap w)) := d]> (heap w))
                   (jose_encoded w) (stdout w))) as ->; [|done].
  destruct k; cbn [issue].
  - apply (issue_steps_overflow data d w (lifetime access_token ed));
      [done | done |].
    intros w'. destruct ed as [s|]; cbn [truthy number lifetime default];
      [|done].
    by destruct (s =? 0).
  - apply (issue_steps_overflow data d w (lifetime refresh_token ed));
      [done | done |].
    intros w'. destruct ed as [s|]; cbn [truthy number lifetime default];
      [|done].
    by destruct (s =? 0).
  - rewrite create_email_token_steps.
    by apply (issue_steps_overflow data d w (default_lifetime email_token)).
Qed.


(** X13.  A duration given as a negative whole number of seconds is taken
    as given: [create_access_token] and [create_refresh_token] then issue a
    token whose expiry lies before the reading of the clock it was counted
    from. *)
Theorem negative_duration_is_issued_expired (k : kind) (data : loc)
    (s : Z) (d : dict) (w : world) :
  k <> email_token ->
  s < 0 ->
  heap w !! data = Some d ->
  in_range (clock w (reads w)) s ->
  exists (claims : dict) (exp : Z),
    jose_encoded (issue k data (Some s) w).2 = claims :: jose_encoded w /\
    (issue k data (Some s) w).1 = (jwt_encode claims SECRET_KEY ALGORITHM).1 /\
    claims !! "exp" = Some (VDatetime exp) /\
    exp < clock w (reads w).
Proof.
  intros Hk Hs Hd Hr.
  assert (lifetime k (Some s) = s) as Hl.
  { destruct k; cbn [lifetime]; try done;
      destruct (Z.eqb_spec s 0); lia. }
  rewrite <- Hl in Hr.
  exists (stamped k (Some s) d w), (clock w (reads w) + s * us_per_second).
  rewrite (issue_run k data (Some s) d w Hd Hr).
  cbn [issued fst snd jose_encoded].
  split_and!; [done | done | by rewrite stamped_exp, Hl |].
  unfold us_per_second. lia.
Qed.

End MoreProperties.

(** * Properties of the migration *)

Module MigrationFacts.

Import Migration.



End MigrationFacts.

(** * The properties at work on the idealised jose *)

Module SymbolicFacts.

Import Symbolic.
#[local] Existing Instances jose users settings.

Ltac crunch :=
  vm_compute; repeat split; first [reflexivity | discriminate].

(** The idealised jose returns the scope it was given. *)
Lemma keeps_scope : jose_keeps_scope.
Proof.
  intros claims rest payload key alg s tok now Henc Hscope Hdec.
  cbn [jwt_encode jwt_decode jose] in Henc, Hdec. unfold encode in Henc.
  injection Henc as <- _. unfold decode in Hdec.
  assert (time_claims claims !! "scope" = Some (VStr s)) as Hkept.
  { unfold time_claims. by rewrite !lookup_alter_ne. }
  destruct (_ && _); [|done].
  destruct (time_claims claims !! "exp") as [[]|]; try by injection Hdec as <-.
  destruct (_ <? _); [done | by injection Hdec as <-].
Qed.

Lemma w0_holds_data0 : heap w0 !! 1%positive = Some data0.
Proof. reflexivity. Defined.

Lemma w0_holds_data1 : heap w0 !! 3%positive = Some data1.
Proof. reflexivity. Defined.

(** The spec's scenario: an access token just issued for ["a@b.com"]
    resolves to that user. *)
Example access_token_resolves :
  (get_current_user access0 tt w0).1 = Ok "a@b.com"%string.
Proof. vm_compute. reflexivity. Qed.

(** A refresh token presented as bearer token is refused for its scope,
    with the answer every other failure gets. *)
Lemma get_current_user_opaque_witness :
  auth_failure refresh0 tt (clock w0 (reads w0)) /\
  (get_current_user refresh0 tt w0).1
  = Raise (HTTPException 401 "Could not validate credentials"
                         (Some {[ "WWW-Authenticate" := "Bearer" ]})).
Proof.
  assert (auth_failure refresh0 tt (clock w0 (reads w0))) as Hfail.
  { apply (wrong_scope _ _ _ (payload_of refresh0)); crunch. }
  split; [exact Hfail | exact (get_current_user_opaque refresh0 tt w0 Hfail)].
Defined.

(** The access token issued for ["a@b.com"] is refused as refresh token
    and as email token. *)
Lemma access_token_rejected_elsewhere_witness :
  create_access_token 1%positive None w0 = (Ok access0, w0_after_access) /\
  (decode_refresh_token access0 w0).1
  = Raise (HTTPException 401 "Invalid scope for token" None) /\
  (get_email_from_token access0 w0).1
  = Raise (HTTPException 401 "Invalid scope for token" None).
Proof.
  assert (create_access_token 1%positive None w0
          = (Ok access0, w0_after_access)) as Hrun by reflexivity.
  destruct (access_token_rejected_elsewhere (lib := jose) 1%positive None
              data0 w0 w0_after_access w0 access0 keeps_scope w0_holds_data0
              Hrun) as (Hrefresh & Hemail & _).
  split_and!; [exact Hrun | |].
  - destruct Hrefresh as [Hr | Hr]; [exact Hr|].
    vm_compute in Hr. discriminate Hr.
  - destruct Hemail as [He | He]; [exact He|].
    vm_compute in He. discriminate He.
Defined.

(** A string that is no token gets 422 from [get_email_from_token], an
    access token 401. *)
Lemma get_email_from_token_errors_witness :
  (get_email_from_token (Garbage "x") w0).1
  = Raise (HTTPException 422 "Invalid token for email verification" None) /\
  (get_email_from_token access0 w0).1
  = Raise (HTTPException 401 "Invalid scope for token" None).
Proof.
  split.
  - apply (proj1 (get_email_from_token_errors (lib := jose) (Garbage "x") w0)
             (JoseError JWTError_base "Not enough segments")).
    crunch.
  - apply (proj2 (get_email_from_token_errors (lib := jose) access0 w0)
             (payload_of access0) (VStr "access_token")); crunch.
Defined.



(** A signed payload without scope presented for email verification. *)
Lemma get_email_from_token_without_scope_witness :
  jwt_decode no_scope SECRET_KEY [ALGORITHM] (clock w0 (reads w0))
  = inr data0 /\
  data0 !! "scope" = None /\
  dict_get data0 "scope" <> VStr "email_token" /\
  (get_email_from_token no_scope w0).1 = Raise (KeyError "scope") /\
  (get_email_from_token no_scope w0).1
  <> Raise (HTTPException 401 "Invalid scope for token" None).
Proof.
  assert (jwt_decode no_scope SECRET_KEY [ALGORITHM] (clock w0 (reads w0))
          = inr data0) as Hdec by crunch.
  split_and!; [exact Hdec | reflexivity | ..];
    apply (get_email_from_token_without_scope (lib := jose) no_scope w0
             data0 Hdec eq_refl).
Defined.

(** A signed payload without scope, and a refresh token the service itself
    issued from a dictionary without subject: both end in [KeyError]. *)
Lemma missing_claim_escapes_as_KeyError_witness :
  (decode_refresh_token no_scope w0).1 = Raise (KeyError "scope") /\
  (get_email_from_token no_scope w0).1 = Raise (KeyError "scope") /\
  (decode_refresh_token refresh_no_sub w0).1 = Raise (KeyError "sub").
Proof.
  assert (jwt_decode no_scope SECRET_KEY [ALGORITHM] (clock w0 (reads w0))
          = inr data0) as H1 by crunch.
  assert (jwt_decode refresh_no_sub SECRET_KEY [ALGORITHM]
                     (clock w0 (reads w0))
          = inr (payload_of refresh_no_sub)) as H2 by crunch.
  destruct (missing_claim_escapes_as_KeyError (lib := jose) no_scope w0
              data0 H1) as [Hscope _].
  destruct (missing_claim_escapes_as_KeyError (lib := jose) refresh_no_sub w0
              (payload_of refresh_no_sub) H2) as [_ Hsub].
  destruct (Hscope eq_refl) as [Ha Hb].
  split_and!; [exact Ha | exact Hb |].
  apply (proj1 (Hsub eq_refl)). crunch.
Defined.

(** An email token issued from a dictionary that came with its own [iat]
    and [scope]. *)
Lemma issue_stamps_iat_and_scope_witness :
  heap w0 !! 3%positive = Some data1 /\
  in_range (clock w0 (reads w0)) (lifetime email_token None) /\
  exists claims : dict,
    jose_encoded (create_email_token 3%positive w0).2
    = claims :: jose_encoded w0 /\
    (create_email_token 3%positive w0).1
    = (jwt_encode claims SECRET_KEY ALGORITHM).1 /\
    claims !! "iat" = Some (VDatetime (t0 + 1)) /\
    claims !! "scope" = Some (VStr "email_token").
Proof.
  assert (in_range (clock w0 (reads w0)) (lifetime email_token None))
    as Hr by crunch.
  split_and!; [reflexivity | exact Hr |].
  exact (issue_stamps_iat_and_scope email_token 3%positive None data1 w0
           w0_holds_data1 Hr).
Defined.



(** The idealised jose returns every string claim it does not rewrite. *)
Lemma keeps (name : string) :
  name <> "exp"%string -> name <> "iat"%string -> name <> "nbf"%string ->
  jose_keeps name.
Proof.
  intros Hexp Hiat Hnbf claims rest payload key alg s tok now Henc Hname Hdec.
  cbn [jwt_encode jwt_decode jose] in Henc, Hdec. unfold encode in Henc.
  injection Henc as <- _. unfold decode in Hdec.
  assert (time_claims claims !! name = Some (VStr s)) as Hkept.
  { unfold time_claims. by rewrite !lookup_alter_ne. }
  destruct (_ && _); [|done].
  destruct (time_claims claims !! "exp") as [[]|]; try by injection Hdec as <-.
  destruct (_ <? _); [done | by injection Hdec as <-].
Qed.

Lemma keeps_sub : jose_keeps "sub".
Proof. by apply keeps. Qed.

Lemma keeps_scope' : jose_keeps "scope".
Proof. by apply keeps. Qed.

Lemma access0_accepted : accepted access0 (clock w0 (reads w0)).
Proof. exists (payload_of access0). vm_compute. reflexivity. Defined.

(** The access token just issued resolves to its user. *)
Lemma get_current_user_returns_iff_witness :
  (get_current_user access0 tt w0).1 = Ok "a@b.com"%string.
Proof.
  apply (proj2 (get_current_user_returns_iff (lib := jose) (store := users)
                  access0 tt w0 "a@b.com"%string)).
  exists (payload_of access0). crunch.
Defined.

(** The refresh and the email token for ["a@b.com"] give that string. *)
Lemma resolvers_return_iff_witness :
  (decode_refresh_token refresh0 w0).1 = Ok (VStr "a@b.com") /\
  (get_email_from_token email0 w0).1 = Ok (VStr "a@b.com").
Proof.
  split.
  - apply (proj2 (proj1 (resolvers_return_iff (lib := jose) refresh0 w0
                           (VStr "a@b.com")))).
    exists (payload_of refresh0). crunch.
  - apply (proj2 (proj2 (resolvers_return_iff (lib := jose) email0 w0
                           (VStr "a@b.com")))).
    exists (payload_of email0). crunch.
Defined.

(** A string that is no token, and an access token, presented for
    refresh. *)
Lemma decode_refresh_token_detail_iff_witness :
  (decode_refresh_token (Garbage "x") w0).1
  = Raise (HTTPException 401 "Could not validate credentials" None) /\
  (decode_refresh_token access0 w0).1
  = Raise (HTTPException 401 "Invalid scope for token" None).
Proof.
  split.
  - apply (proj2 (proj1 (decode_refresh_token_detail_iff (lib := jose)
                           (Garbage "x") w0))).
    exists (JoseError JWTError_base "Not enough segments"). crunch.
  - apply (proj2 (proj2 (decode_refresh_token_detail_iff (lib := jose)
                           access0 w0))).
    exists (payload_of access0), (VStr "access_token"). crunch.
Defined.

(** The refresh token for ["a@b.com"], which jose accepts, presented as
    bearer token and as email token. *)
Lemma token_kinds_do_not_cross_witness :
  issue refresh_token 1%positive None w0
  = (Ok refresh0, (create_refresh_token 1%positive None w0).2) /\
  (get_current_user refresh0 tt w0).1
  = Raise (HTTPException 401 "Could not validate credentials"
                         (Some {[ "WWW-Authenticate" := "Bearer" ]})) /\
  (get_email_from_token refresh0 w0).1
  = Raise (HTTPException 401 "Invalid scope for token" None).
Proof.
  assert (issue refresh_token 1%positive None w0
          = (Ok refresh0, (create_refresh_token 1%positive None w0).2))
    as Hrun by reflexivity.
  assert (jwt_decode refresh0 SECRET_KEY [ALGORITHM] (clock w0 (reads w0))
          = inr (payload_of refresh0)) as Hdec by crunch.
  destruct (token_kinds_do_not_cross (lib := jose) (store := users)
              refresh_token 1%positive None data0 w0
              (create_refresh_token 1%positive None w0).2 w0 refresh0 tt
              keeps_scope w0_holds_data0 Hrun) as (Hbearer & _ & Hemail).
  split_and!; [exact Hrun | |].
  - apply (proj2 (Hbearer ltac:(discriminate)) _ Hdec).
  - apply (proj2 (Hemail ltac:(discriminate)) _ Hdec).
Defined.

(** The access token for ["a@b.com"] and the one account of the store. *)
Lemma access_token_authenticates_its_subject_witness :
  (get_current_user access0 tt w0).1 = Ok "a@b.com"%string <->
  accepted access0 (clock w0 (reads w0)) /\
  get_user_by_email (VStr "a@b.com") tt = Some "a@b.com"%string.
Proof.
  exact (access_token_authenticates_its_subject (lib := jose)
           (store := users) 1%positive None data0 w0 w0_after_access w0
           access0 tt "a@b.com" "a@b.com"%string keeps_scope' keeps_sub
           w0_holds_data0 eq_refl eq_refl).
Defined.

(** The refresh token for ["a@b.com"] presented for refresh. *)
Lemma refresh_token_returns_its_subject_witness :
  (decode_refresh_token refresh0 w0).1 = Ok (VStr "a@b.com") <->
  accepted refresh0 (clock w0 (reads w0)) /\ VStr "a@b.com" = VStr "a@b.com".
Proof.
  exact (refresh_token_returns_its_subject (lib := jose) 1%positive None
           data0 w0 (create_refresh_token 1%positive None w0).2 w0 refresh0
           "a@b.com" (VStr "a@b.com") keeps_scope' keeps_sub w0_holds_data0
           eq_refl eq_refl).
Defined.

(** The email token for ["a@b.com"] presented for verification. *)
Lemma email_token_returns_its_subject_witness :
  (get_email_from_token email0 w0).1 = Ok (VStr "a@b.com") <->
  accepted email0 (clock w0 (reads w0)) /\ VStr "a@b.com" = VStr "a@b.com".
Proof.
  exact (email_token_returns_its_subject (lib := jose) 1%positive data0 w0
           (create_email_token 1%positive w0).2 w0 email0 "a@b.com"
           (VStr "a@b.com") keeps_scope' keeps_sub w0_holds_data0 eq_refl
           eq_refl).
Defined.

(** Ten minutes before the end of year 9999 an access token of 15 minutes
    cannot be issued. *)
Lemma issue_out_of_range_witness :
  ~ in_range (clock w_late (reads w_late)) (lifetime access_token None) /\
  (create_access_token 1%positive None w_late).1 = Raise OverflowError /\
  jose_encoded (create_access_token 1%positive None w_late).2 = [] /\
  reads (create_access_token 1%positive None w_late).2 = 1%nat.
Proof.
  assert (~ in_range (clock w_late (reads w_late))
                     (lifetime access_token None)) as Hout.
  { intros [_ [_ Hlt]]. vm_compute in Hlt. discriminate Hlt. }
  split; [exact Hout|].
  exact (issue_out_of_range (lib := jose) access_token 1%positive None data0
           w_late eq_refl Hout).
Defined.


(** A refresh token asked to last minus one minute. *)
Lemma negative_duration_is_issued_expired_witness :
  exists (claims : dict) (exp : Z),
    jose_encoded (create_refresh_token 1%positive (Some (-60)) w0).2
    = claims :: jose_encoded w0 /\
    (create_refresh_token 1%positive (Some (-60)) w0).1
    = (jwt_encode claims SECRET_KEY ALGORITHM).1 /\
    claims !! "exp" = Some (VDatetime exp) /\
    exp < clock w0 (reads w0).
Proof.
  assert (in_range (clock w0 (reads w0)) (-60)) as Hr by crunch.
  assert (refresh_token <> email_token) as Hk by discriminate.
  assert (-60 < 0) as Hs by reflexivity.
  exact (negative_duration_is_issued_expired (lib := jose) refresh_token
           1%positive (-60) data0 w0 Hk Hs w0_holds_data0 Hr).
Defined.

End SymbolicFacts.
